(** * Warely AI service: the health endpoints

    A shallow embedding of [services/ai-service/app/routes/health.py] and of
    the routing of [services/ai-service/app/main.py], with the properties of
    the two health handlers.

    The handlers read the host: the clock, the process environment and the
    psutil metrics.  Each read is a field of a [world] record, and one
    invocation of a handler sees one world.  A call either returns or
    raises, which is the [result] type; [try_except_Exception] is Python's
    [try: ... except Exception as e: ...]. *)

From Stdlib Require Import ZArith NArith String Ascii List Bool.
From Stdlib Require Import Floats.PrimFloat.
From Stdlib Require Import DecimalString DecimalFacts DecimalPos DecimalN.
From stdpp Require Import gmap strings fin_maps.

Local Open Scope string_scope.
Set Warnings "-register-all".

(** ** Python values, exceptions and outcomes *)

Module Py.

(** What a handler puts in its JSON body: [str], [float], [int], [dict]. *)
Inductive value : Type :=
  | Str (s : string)
  | Float (f : float)
  | Int (z : Z)
  | Dict (d : gmap string value).

(** An exception object, as far as the handlers look at it:
    [isinstance(e, Exception)] and [str(e)].  [KeyboardInterrupt],
    [SystemExit] and [GeneratorExit] derive from [BaseException] only. *)
Record exn : Type := mk_exn {
  is_Exception : bool;
  str : string
}.

(** [Exception()] has the empty text, [Exception(msg)] has the text [msg]. *)
Definition Exception0 : exn := mk_exn true "".
Definition Exception1 (msg : string) : exn := mk_exn true msg.
Definition KeyboardInterrupt : exn := mk_exn false "".

(** The outcome of a call. *)
Inductive result (A : Type) : Type :=
  | Returns (a : A)
  | Raises (e : exn).
Arguments Returns {A} a.
Arguments Raises {A} e.

#[global] Instance result_ret : MRet result := fun A a => Returns a.
#[global] Instance result_bind : MBind result := fun A B k c =>
  match c with
  | Returns a => k a
  | Raises e => Raises e
  end.

#[global] Instance result_fmap : FMap result := fun A B f c =>
  match c with
  | Returns a => Returns (f a)
  | Raises e => Raises e
  end.

(** [try: body  except Exception as e: handler(e)].  An exception that is
    not an instance of [Exception] is not caught. *)
Definition try_except_Exception {A} (body : result A) (handler : exn -> result A)
  : result A :=
  match body with
  | Returns a => Returns a
  | Raises e => if is_Exception e then handler e else Raises e
  end.

(** [os.getenv(key, default)] over the process environment. *)
Definition getenv (environ : gmap string string) (key dflt : string) : string :=
  default dflt (environ !! key).

End Py.

(** ** [datetime.isoformat] of a naive datetime *)

Module Datetime.

Record datetime : Type := mk_datetime {
  year : N; month : N; day : N;
  hour : N; minute : N; second : N; microsecond : N
}.

Definition dec (n : N) : string := NilZero.string_of_uint (N.to_uint n).

Fixpoint zeros (k : nat) : string :=
  match k with
  | O => ""
  | S k' => String "0" (zeros k')
  end.

(** ["%0<width>d" % n] for a natural number [n]. *)
Definition zfill (width : nat) (n : N) : string :=
  let s := dec n in zeros (width - String.length s) ++ s.

(** ["%04d-%02d-%02dT%02d:%02d:%02d"], then [".%06d"] when the microsecond
    is not zero; no offset, [utcnow()] has no [tzinfo]. *)
Definition isoformat (d : datetime) : string :=
  zfill 4 (year d) ++ "-" ++ zfill 2 (month d) ++ "-" ++ zfill 2 (day d) ++ "T"
  ++ zfill 2 (hour d) ++ ":" ++ zfill 2 (minute d) ++ ":" ++ zfill 2 (second d)
  ++ (if N.eqb (microsecond d) 0 then "" else "." ++ zfill 6 (microsecond d)).

End Datetime.

(** ** psutil *)

Module Psutil.

(** The fields of [psutil.virtual_memory()] common to every platform. *)
Record svmem : Type := mk_svmem {
  total : Z;
  available : Z;
  percent : float;
  used : Z;
  free : Z
}.

End Psutil.

(** ** The host as one invocation sees it *)

Record world : Type := mk_world {
  utcnow : Datetime.datetime;             (* datetime.utcnow() *)
  environ : gmap string string;           (* os.environ *)
  virtual_memory : Py.result Psutil.svmem; (* psutil.virtual_memory() *)
  cpu_percent : Py.result float           (* psutil.cpu_percent() *)
}.

(** ** routes/health.py *)

Import Py.

Definition health_check (w : world) : result (gmap string value) :=
  mret ({[ "status" := Str "ok";
           "service" := Str "ai-service";
           "timestamp" := Str (Datetime.isoformat (utcnow w));
           "version" := Str "1.0.0" ]} : gmap string value).

Definition detailed_health (w : world) : result (gmap string value) :=
  try_except_Exception
    (memory ← virtual_memory w;
     cpu ← cpu_percent w;
     mret ({[ "status" := Str "ok";
              "service" := Str "ai-service";
              "timestamp" := Str (Datetime.isoformat (utcnow w));
              "version" := Str "1.0.0";
              "system" := Dict {[
                "cpu_percent" := Float cpu;
                "memory_percent" := Float (Psutil.percent memory);
                "memory_available" := Int (Psutil.available memory);
                "environment" := Str (getenv (environ w) "NODE_ENV" "production") ]};
              "dependencies" := Dict {[
                "tensorflow" := Str "ready";
                "mongodb" := Str "connected";
                "redis" := Str "connected" ]} ]} : gmap string value))
    (fun e =>
     mret ({[ "status" := Str "error";
              "error" := Str (str e);
              "timestamp" := Str (Datetime.isoformat (utcnow w)) ]}
           : gmap string value)).

(** The metrics-collection step: the two psutil calls of [detailed_health],
    in the order of the source.  The second is not made when the first
    raises. *)
Definition collect_metrics (w : world) : result (Psutil.svmem * float) :=
  memory ← virtual_memory w;
  cpu ← cpu_percent w;
  mret (memory, cpu).

(** ** main.py: the routes of the application *)

Module Main.

(** What a path operation hands back to the framework. *)
Definition root (w : world) : result value :=
  mret (Str "Hello from Warely AI-Service").

Definition endpoint : Type := world -> result value.

Record api_route : Type := mk_route {
  route_method : string;
  route_path : string;
  route_endpoint : endpoint
}.

(** [router = APIRouter()] of routes/health.py with its two [@router.get]. *)
Definition health_router : list api_route :=
  [ mk_route "GET" "" (fun w => Dict <$> health_check w);
    mk_route "GET" "/detailed" (fun w => Dict <$> detailed_health w) ].

(** [app.include_router(router, prefix=...)]. *)
Definition include_router (prefix : string) (router : list api_route) : list api_route :=
  map (fun r => mk_route (route_method r) (prefix ++ route_path r) (route_endpoint r)) router.

(** The routes of [app], in the order main.py registers them. *)
Definition app_routes : list api_route :=
  (include_router "/health" health_router ++ [ mk_route "GET" "/hello" root ])%list.

Record response : Type := mk_response {
  status_code : Z;
  content : value
}.

Definition find_route (method path : string) (routes : list api_route) : option api_route :=
  find (fun r => String.eqb (route_method r) method && String.eqb (route_path r) path) routes.

(** *** The framework's part

    What FastAPI and Starlette do with the routes above, as far as the
    decorators of the source leave their defaults in place (no
    [status_code=], no [response_class=], no exception handler).  The
    routes FastAPI adds by itself for its documentation pages are not in
    [app_routes], and request and response headers are not modelled. *)

(** Whether [json.dumps(v, allow_nan=False)], which renders the value a
    path operation returned, succeeds.  It raises [ValueError] on a NaN or
    an infinity, and on an int that has more decimal digits than Python's
    limit for printing an int, 4300 by default.  A [string] stands for a
    text that has a UTF-8 encoding. *)
Fixpoint json_encodable (v : value) : bool :=
  match v with
  | Str _ => true
  | Float f => PrimFloat.is_finite f
  | Int z => (Z.abs z <? 10 ^ 4300)%Z
  | Dict d => map_fold (fun _ x ok => json_encodable x && ok) true d
  end.

Definition path_matches (path : string) (r : api_route) : bool :=
  String.eqb (route_path r) path.

(** [path.rstrip("/")]. *)
Fixpoint rstrip_slash (s : string) : string :=
  match s with
  | "" => ""
  | String c s' =>
      match rstrip_slash s' with
      | "" => if Ascii.eqb c "/" then "" else String c ""
      | t => String c t
      end
  end.

Fixpoint ends_with_slash (s : string) : bool :=
  match s with
  | "" => false
  | String c "" => Ascii.eqb c "/"
  | String _ s' => ends_with_slash s'
  end.

(** The path the router tries next when none matched: without its
    trailing slashes, or with one added. *)
Definition redirect_path (path : string) : string :=
  if ends_with_slash path then rstrip_slash path else path ++ "/".

(** One request.  A route whose method and path match runs its path
    operation: a returned value that renders as JSON is answered 200 with
    that value as the body; a value that does not render, or an exception
    that leaves the path operation, is answered 500.  A path that matches
    under another method is answered 405.  Otherwise a path other than "/"
    that matches once its trailing slash is removed or added is answered
    307, a redirect with an empty body, and anything else 404. *)
Definition app (method path : string) (w : world) : response :=
  match find_route method path app_routes with
  | Some r =>
      match route_endpoint r w with
      | Returns v =>
          if json_encodable v then mk_response 200 v
          else mk_response 500 (Str "Internal Server Error")
      | Raises _ => mk_response 500 (Str "Internal Server Error")
      end
  | None =>
      if existsb (path_matches path) app_routes
      then mk_response 405 (Dict {[ "detail" := Str "Method Not Allowed" ]})
      else if negb (String.eqb path "/")
              && existsb (path_matches (redirect_path path)) app_routes
      then mk_response 307 (Str "")
      else mk_response 404 (Dict {[ "detail" := Str "Not Found" ]})
  end.

(** *** The entry point, [if __name__ == "__main__":] *)

(** The arguments of the call of [uvicorn.run]. *)
Record run_args : Type := mk_run_args {
  run_app : string;
  run_host : string;
  run_port : Z;
  run_reload : bool
}.

Section EntryPoint.

(** [int(s)] for a [str]: the number the builtin reads, or the
    [ValueError] it raises. *)
Variable int_str : string -> result Z.

(** [int(os.getenv("PORT", 6001))].  The default is the number 6001, and
    [int] of a number is that number. *)
Definition port (environ : gmap string string) : result Z :=
  match environ !! "PORT" with
  | Some s => int_str s
  | None => mret 6001%Z
  end.

(** [os.getenv("NODE_ENV") == "development"]: [None] when the variable is
    unset, and [None] equals no string. *)
Definition reload (environ : gmap string string) : bool :=
  match environ !! "NODE_ENV" with
  | Some s => String.eqb s "development"
  | None => false
  end.

(** [port] is computed first; the call of [uvicorn.run] is reached only
    when [int] returned. *)
Definition main (environ : gmap string string) : result run_args :=
  p ← port environ;
  mret (mk_run_args "app.main:app" "0.0.0.0" p (reload environ)).

End EntryPoint.

End Main.

(** Metrics collection either returns or raises an error, an instance of
    [Exception]: the class the except clause of [detailed_health] names. *)
Definition returns_or_raises_error (w : world) : bool :=
  match collect_metrics w with
  | Returns _ => true
  | Raises e => is_Exception e
  end.


(** ** Reading a report *)

(** [report["system"][key]]. *)
Definition system_field (report : gmap string value) (key : string) : option value :=
  match report !! "system" with
  | Some (Dict d) => d !! key
  | _ => None
  end.

(** A percentage in [[0, 100]], as binary64 comparisons. *)
Definition is_percentage (f : float) : bool :=
  PrimFloat.leb 0 f && PrimFloat.leb f 100.

Definition is_str (v : option value) : bool :=
  match v with Some (Str _) => true | _ => false end.

(** [v == s] for a looked-up field. *)
Definition str_is (v : option value) (s : string) : bool :=
  match v with Some (Str t) => String.eqb t s | _ => false end.

Definition is_float (v : option value) : bool :=
  match v with Some (Float _) => true | _ => false end.

Definition is_int (v : option value) : bool :=
  match v with Some (Int _) => true | _ => false end.

Definition is_dict_of_str (v : option value) : bool :=
  match v with
  | Some (Dict d) => bool_decide (map_Forall (fun _ x => is_str (Some x) = true) d)
  | _ => false
  end.

(** The ok variant of the report: six fields, the system block complete. *)
Definition ok_report (r : gmap string value) : bool :=
  bool_decide (dom r = ({[ "status"; "service"; "timestamp"; "version";
                           "system"; "dependencies" ]} : gset string))
  && str_is (r !! "status") "ok"
  && is_str (r !! "service") && is_str (r !! "timestamp") && is_str (r !! "version")
  && is_float (system_field r "cpu_percent")
  && is_float (system_field r "memory_percent")
  && is_int (system_field r "memory_available")
  && is_str (system_field r "environment")
  && is_dict_of_str (r !! "dependencies").

(** The error variant: status, error text and timestamp, nothing else. *)
Definition error_report (r : gmap string value) : bool :=
  bool_decide (dom r = ({[ "status"; "error"; "timestamp" ]} : gset string))
  && str_is (r !! "status") "error"
  && is_str (r !! "error") && is_str (r !! "timestamp").

Definition well_formed_report (r : gmap string value) : bool :=
  ok_report r || error_report r.

(** ** Sample hosts *)

Definition sample_clock : Datetime.datetime :=
  Datetime.mk_datetime 2024 3 7 9 5 0 1234.

Definition sample_memory : Psutil.svmem :=
  Psutil.mk_svmem 16000000000 6000000000 62.5 9000000000 1000000000.

(** A healthy host with [NODE_ENV=staging]. *)
Definition staging_world : world :=
  mk_world sample_clock {[ "NODE_ENV" := "staging" ]} (Returns sample_memory) (Returns 12.5%float).

(** A healthy host with [NODE_ENV] unset and another variable set. *)
Definition unset_world : world :=
  mk_world sample_clock {[ "PORT" := "6001" ]} (Returns sample_memory) (Returns 0%float).

(** [psutil.virtual_memory()] raises [Exception("boom")]. *)
Definition boom_world : world :=
  mk_world sample_clock ∅ (Raises (Exception1 "boom")) (Returns 12.5%float).

(** What [detailed_health] returns on [boom_world]. *)
Definition boom_report : gmap string value :=
  {[ "status" := Str "error"; "error" := Str "boom";
     "timestamp" := Str "2024-03-07T09:05:00.001234" ]}.

(** [psutil.cpu_percent()] raises [Exception()], whose text is empty. *)
Definition silent_world : world :=
  mk_world sample_clock ∅ (Returns sample_memory) (Raises Exception0).


(** [psutil.virtual_memory()] is interrupted by [KeyboardInterrupt]. *)
Definition interrupted_world : world :=
  mk_world sample_clock ∅ (Raises KeyboardInterrupt) (Returns 12.5%float).

(** What [detailed_health] looks at: the clock, NODE_ENV, and from psutil
    the memory percentage, the available bytes and the CPU percentage, or
    the first exception. *)
Definition observation (w : world)
  : Datetime.datetime * option string * result (float * Z * float) :=
  (utcnow w, environ w !! "NODE_ENV",
   memory ← virtual_memory w;
   cpu ← cpu_percent w;
   mret (Psutil.percent memory, Psutil.available memory, cpu)).

(** Both psutil calls would raise, with different texts. *)
Definition broken_world : world :=
  mk_world sample_clock ∅ (Raises (Exception1 "no meminfo")) (Raises (Exception1 "no stat")).

(** [staging_world] with other memory totals and a secret in the
    environment. *)
Definition secret_world : world :=
  mk_world sample_clock
    {[ "NODE_ENV" := "staging"; "API_KEY" := "s3cr3t" ]}
    (Returns (Psutil.mk_svmem 32000000000 6000000000 62.5 1 2))
    (Returns 12.5%float).

(** A decimal reader for the examples of the entry point.  Python's [int]
    reads these texts to the same numbers; it also accepts surrounding
    spaces and underscores between digits, which this reader rejects. *)
Definition sample_int (s : string) : result Z :=
  match NilZero.int_of_string s with
  | Some i => Returns (Z.of_int i)
  | None => Raises (Exception1 ("invalid literal for int() with base 10: " ++ s))
  end.

(** A development host that sets the port. *)
Definition port_world : world :=
  mk_world sample_clock {[ "NODE_ENV" := "development"; "PORT" := "8080" ]}
    (Returns sample_memory) (Returns 0%float).

(** The next whole second after [sample_clock], on a healthy host. *)
Definition later_world : world :=
  mk_world (Datetime.mk_datetime 2024 3 7 9 5 1 0) ∅
    (Returns sample_memory) (Returns 0%float).

(** What [health_check] returns on [later_world]. *)
Definition later_report : gmap string value :=
  {[ "status" := Str "ok"; "service" := Str "ai-service";
     "timestamp" := Str "2024-03-07T09:05:01"; "version" := Str "1.0.0" ]}.

(** ** Clock readings *)

(** The invariants of a [datetime] object, as its constructor checks them
    (the day is checked here against 31 only, not against the month). *)
Definition valid_datetime (d : Datetime.datetime) : bool :=
  (1 <=? Datetime.year d)%N && (Datetime.year d <=? 9999)%N
  && (1 <=? Datetime.month d)%N && (Datetime.month d <=? 12)%N
  && (1 <=? Datetime.day d)%N && (Datetime.day d <=? 31)%N
  && (Datetime.hour d <? 24)%N && (Datetime.minute d <? 60)%N
  && (Datetime.second d <? 60)%N && (Datetime.microsecond d <? 1000000)%N.

(** The order of two sequences of numbers, first difference first: the
    comparison of tuples. *)
Fixpoint lex_compare (l1 l2 : list N) : comparison :=
  match l1, l2 with
  | [], [] => Eq
  | [], _ :: _ => Lt
  | _ :: _, [] => Gt
  | x :: l1', y :: l2' =>
      match N.compare x y with
      | Eq => lex_compare l1' l2'
      | c => c
      end
  end.

(** The order of naive datetimes: [datetime] compares the tuples (year,
    month, day, hour, minute, second, microsecond). *)
Definition datetime_compare (d1 d2 : Datetime.datetime) : comparison :=
  let fields d :=
    [ Datetime.year d; Datetime.month d; Datetime.day d; Datetime.hour d;
      Datetime.minute d; Datetime.second d; Datetime.microsecond d ] in
  lex_compare (fields d1) (fields d2).

(** The digit [k] in front of [d]. *)
Definition digit (k : N) (d : Decimal.uint) : Decimal.uint :=
  match k with
  | 0 => Decimal.D0 d | 1 => Decimal.D1 d | 2 => Decimal.D2 d
  | 3 => Decimal.D3 d | 4 => Decimal.D4 d | 5 => Decimal.D5 d
  | 6 => Decimal.D6 d | 7 => Decimal.D7 d | 8 => Decimal.D8 d
  | _ => Decimal.D9 d
  end%N.

(** The [w] low decimal digits of [n], lowest first. *)
Fixpoint low_digits (w : nat) (n : N) : Decimal.uint :=
  match w with
  | O => Decimal.Nil
  | S w' => digit (n mod 10) (low_digits w' (n / 10))
  end.

(** ** Running the handlers *)

Example isoformat_sample :
  Datetime.isoformat sample_clock = "2024-03-07T09:05:00.001234".
Proof. reflexivity. Qed.

Example isoformat_whole_second :
  Datetime.isoformat (Datetime.mk_datetime 987 12 31 23 59 59 0) = "0987-12-31T23:59:59".
Proof. reflexivity. Qed.

(** [except Exception] lets an exception of another class through. *)
Example try_except_passes_BaseException (h : exn -> result Z) :
  try_except_Exception (Raises KeyboardInterrupt) h = Raises KeyboardInterrupt.
Proof. reflexivity. Qed.

Lemma collect_returns (w : world) (m : Psutil.svmem) (c : float) :
  collect_metrics w = Returns (m, c) ->
  virtual_memory w = Returns m /\ cpu_percent w = Returns c.
Proof.
  unfold collect_metrics.
  destruct (virtual_memory w) as [m'|e1]; cbn; [|discriminate].
  destruct (cpu_percent w) as [c'|e2]; cbn; [|discriminate].
  intros [= -> ->]. split; reflexivity.
Qed.

Lemma collect_raises (w : world) (e : exn) :
  collect_metrics w = Raises e ->
  virtual_memory w = Raises e \/
  exists m, virtual_memory w = Returns m /\ cpu_percent w = Raises e.
Proof.
  unfold collect_metrics.
  destruct (virtual_memory w) as [m'|e1]; cbn.
  - destruct (cpu_percent w) as [c'|e2]; cbn; [discriminate|].
    intros [= ->]. right. exists m'. split; reflexivity.
  - intros [= ->]. left. reflexivity.
Qed.

(** The success branch of [detailed_health], from [H : collect_metrics w =
    Returns (m, c)]. *)
Ltac run_success H :=
  let Hm := fresh "Hm" in
  let Hc := fresh "Hc" in
  apply collect_returns in H as [Hm Hc];
  unfold detailed_health; rewrite Hm, Hc; cbn.

(** The except branch, from [H : collect_metrics w = Raises e] and
    [He : is_Exception e = true], for either psutil call raising. *)
Ltac run_failure H He :=
  let Hm := fresh "Hm" in
  let Hc := fresh "Hc" in
  let m := fresh "m" in
  apply collect_raises in H as [Hm | (m & Hm & Hc)];
  unfold detailed_health; rewrite Hm, ?Hc; cbn; rewrite He; cbn.

(** [detailed_health] returns exactly when metrics collection returns or
    raises an instance of [Exception]; otherwise it raises what metrics
    collection raised. *)
Lemma detailed_health_returns_iff (w : world) :
  (exists r, detailed_health w = Returns r) <-> returns_or_raises_error w = true.
Proof.
  unfold returns_or_raises_error.
  destruct (collect_metrics w) as [[m c]|e] eqn:H.
  - split; [reflexivity|]. intros _. run_success H. eexists. reflexivity.
  - destruct (is_Exception e) eqn:He.
    + split; [reflexivity|]. intros _.
      run_failure H He; eexists; reflexivity.
    + split; [|discriminate]. intros [r Hr]. revert Hr.
      apply collect_raises in H as [Hm | (m & Hm & Hc)];
        unfold detailed_health; rewrite Hm, ?Hc; cbn; rewrite He; discriminate.
Qed.

(** An exception that is not an [Exception] is not caught by the handler. *)
Example detailed_health_interrupted :
  detailed_health interrupted_world = Raises KeyboardInterrupt.
Proof. reflexivity. Qed.

Example detailed_health_boom :
  detailed_health boom_world = Returns boom_report.
Proof. reflexivity. Qed.

(** ** BasicHealth *)

(** C2: every invocation of [health_check] returns, and its report has
    status "ok", service "ai-service", version "1.0.0" and the ISO text of
    this invocation's clock reading as timestamp, and no other field; the
    service and version of any other invocation are the same. *)
Theorem health_check_report (w w' : world) :
  exists r r' : gmap string value,
    health_check w = Returns r /\ health_check w' = Returns r' /\
    r !! "status" = Some (Str "ok") /\
    r !! "service" = Some (Str "ai-service") /\
    r !! "version" = Some (Str "1.0.0") /\
    r !! "timestamp" = Some (Str (Datetime.isoformat (utcnow w))) /\
    dom r = {[ "status"; "service"; "timestamp"; "version" ]} /\
    r' !! "service" = r !! "service" /\
    r' !! "version" = r !! "version".
Proof.
  unfold health_check. do 2 eexists.
  split; [reflexivity|]. split; [reflexivity|].
  repeat split; reflexivity.
Qed.

(** C10: [health_check] reads nothing of the host but the clock: two
    invocations whose clock readings are equal return the same report,
    whatever their environment variables and host metrics are. *)
Theorem health_check_clock_only (w1 w2 : world) :
  utcnow w1 = utcnow w2 -> health_check w1 = health_check w2.
Proof. intros Hclock. unfold health_check. rewrite Hclock. reflexivity. Qed.

Lemma health_check_clock_only_witness :
  environ staging_world <> environ boom_world /\
  virtual_memory staging_world <> virtual_memory boom_world /\
  health_check staging_world = health_check boom_world.
Proof.
  split; [|split].
  - intros Henv. apply (f_equal (fun m => m !! "NODE_ENV")) in Henv.
    vm_compute in Henv. discriminate Henv.
  - discriminate.
  - apply (health_check_clock_only staging_world boom_world). reflexivity.
Defined.

(** ** DetailedHealth: the success branch *)

Section Success.

Variable w : world.
Variable m : Psutil.svmem.
Variable c : float.
Hypothesis Hcollect : collect_metrics w = Returns (m, c).

(** C5: when metrics collection succeeds the report has status "ok" and
    its dependencies are the fixed map tensorflow: ready, mongodb:
    connected, redis: connected, whatever the host is. *)
Theorem detailed_health_dependencies :
  exists r : gmap string value,
    detailed_health w = Returns r /\
    r !! "status" = Some (Str "ok") /\
    r !! "dependencies" =
      Some (Dict {[ "tensorflow" := Str "ready";
                    "mongodb" := Str "connected";
                    "redis" := Str "connected" ]}).
Proof.
  pose proof Hcollect as H. run_success H.
  eexists. split; [reflexivity|]. split; reflexivity.
Qed.

(** C6: when metrics collection succeeds, the environment field of the
    system block is the value of NODE_ENV when that variable is set, and
    "production" when it is unset. *)
Theorem detailed_health_environment :
  exists r : gmap string value,
    detailed_health w = Returns r /\
    (forall v, environ w !! "NODE_ENV" = Some v ->
               system_field r "environment" = Some (Str v)) /\
    (environ w !! "NODE_ENV" = None ->
     system_field r "environment" = Some (Str "production")).
Proof.
  pose proof Hcollect as H. run_success H.
  eexists. split; [reflexivity|].
  split; [intros v Hv|intros Hv]; unfold system_field, getenv;
    rewrite Hv; reflexivity.
Qed.

(** C7: when metrics collection succeeds and psutil reports a CPU
    percentage in [0,100], a memory percentage in [0,100] and a
    non-negative available byte count, the report has status "ok" and
    carries a CPU percentage in [0,100], a memory percentage in [0,100]
    and a non-negative available byte count in its system block. *)
Theorem detailed_health_ranges :
  is_percentage c = true ->
  is_percentage (Psutil.percent m) = true ->
  (0 <= Psutil.available m)%Z ->
  exists (r : gmap string value) (cpu mem : float) (avail : Z),
    detailed_health w = Returns r /\
    r !! "status" = Some (Str "ok") /\
    system_field r "cpu_percent" = Some (Float cpu) /\
    is_percentage cpu = true /\
    system_field r "memory_percent" = Some (Float mem) /\
    is_percentage mem = true /\
    system_field r "memory_available" = Some (Int avail) /\
    (0 <= avail)%Z.
Proof.
  intros Hcpu Hmem Havail.
  pose proof Hcollect as H. run_success H.
  eexists. exists c, (Psutil.percent m), (Psutil.available m).
  repeat split; try reflexivity; assumption.
Qed.

End Success.

Lemma detailed_health_dependencies_witness :
  collect_metrics unset_world = Returns (sample_memory, 0%float) /\
  exists r : gmap string value,
    detailed_health unset_world = Returns r /\
    r !! "status" = Some (Str "ok") /\
    r !! "dependencies" =
      Some (Dict {[ "tensorflow" := Str "ready";
                    "mongodb" := Str "connected";
                    "redis" := Str "connected" ]}).
Proof.
  split; [reflexivity|].
  apply (detailed_health_dependencies unset_world sample_memory 0%float).
  reflexivity.
Defined.

(** Scenario 3 of the spec, NODE_ENV=staging, through the theorem. *)
Lemma detailed_health_environment_witness :
  collect_metrics staging_world = Returns (sample_memory, 12.5%float) /\
  exists r : gmap string value,
    detailed_health staging_world = Returns r /\
    system_field r "environment" = Some (Str "staging").
Proof.
  split; [reflexivity|].
  destruct (detailed_health_environment staging_world sample_memory 12.5%float)
    as (r & Hr & Hset & _); [reflexivity|].
  exists r. split; [exact Hr|]. apply Hset. reflexivity.
Defined.

Example detailed_health_environment_unset :
  exists r : gmap string value,
    detailed_health unset_world = Returns r /\
    system_field r "environment" = Some (Str "production").
Proof. eexists. split; reflexivity. Qed.

(** An empty NODE_ENV is a set variable: the field is the empty string. *)
Example detailed_health_environment_empty :
  exists r : gmap string value,
    detailed_health
      (mk_world sample_clock {[ "NODE_ENV" := "" ]} (Returns sample_memory) (Returns 0%float))
    = Returns r /\
    system_field r "environment" = Some (Str "").
Proof. eexists. split; reflexivity. Qed.

Lemma detailed_health_ranges_witness :
  is_percentage 12.5%float = true /\
  is_percentage (Psutil.percent sample_memory) = true /\
  (0 <= Psutil.available sample_memory)%Z /\
  exists (r : gmap string value) (cpu mem : float) (avail : Z),
    detailed_health staging_world = Returns r /\
    r !! "status" = Some (Str "ok") /\
    system_field r "cpu_percent" = Some (Float cpu) /\
    is_percentage cpu = true /\
    system_field r "memory_percent" = Some (Float mem) /\
    is_percentage mem = true /\
    system_field r "memory_available" = Some (Int avail) /\
    (0 <= avail)%Z.
Proof.
  split; [reflexivity|]. split; [reflexivity|]. split; [discriminate|].
  apply (detailed_health_ranges staging_world sample_memory 12.5%float);
    [reflexivity | reflexivity | reflexivity | discriminate].
Defined.

(** ** DetailedHealth: the except branch *)

(** The spec calls the error text [error_message]; the handler stores it
    under the key "error". *)
Lemma detailed_health_error_key :
  collect_metrics boom_world = Raises (Exception1 "boom") /\
  exists r : gmap string value,
    detailed_health boom_world = Returns r /\
    r !! "error_message" = None /\
    r !! "error" = Some (Str "boom").
Proof.
  split; [reflexivity|]. eexists. split; [reflexivity|]. split; reflexivity.
Qed.

(** [Exception()] has an empty text, and the report carries it as it is. *)
Lemma detailed_health_empty_error_text :
  collect_metrics silent_world = Raises Exception0 /\
  is_Exception Exception0 = true /\
  exists r : gmap string value,
    detailed_health silent_world = Returns r /\
    r !! "status" = Some (Str "error") /\
    r !! "error" = Some (Str "") /\
    r !! "error_message" = None.
Proof.
  split; [reflexivity|]. split; [reflexivity|].
  eexists. split; [reflexivity|]. repeat split; reflexivity.
Qed.

Section Failure.

Variable w : world.
Variable e : exn.
Hypothesis Hcollect : collect_metrics w = Raises e.
Hypothesis Herror : is_Exception e = true.

(** C3 (amended): when metrics collection raises an error, the report has
    status "error", an "error" field holding the text of the exception and
    a "timestamp" field, and nothing else: no "system", "dependencies",
    "service" or "version" field. *)
Theorem detailed_health_error_shape :
  exists r : gmap string value,
    detailed_health w = Returns r /\
    r !! "status" = Some (Str "error") /\
    r !! "error" = Some (Str (str e)) /\
    r !! "timestamp" = Some (Str (Datetime.isoformat (utcnow w))) /\
    r !! "system" = None /\ r !! "dependencies" = None /\
    r !! "service" = None /\ r !! "version" = None /\
    dom r = {[ "status"; "error"; "timestamp" ]}.
Proof.
  pose proof Hcollect as H.
  run_failure H Herror; (eexists; split; [reflexivity|]; repeat split; reflexivity).
Qed.

(** C4 (amended): when metrics collection is made to fail with an
    exception derived from Exception, the call returns, the report has
    status "error" and its "error" field is the text of the exception,
    which is a non-empty string exactly when that text is non-empty. *)
Theorem detailed_health_error_text :
  exists (r : gmap string value) (s : string),
    detailed_health w = Returns r /\
    r !! "status" = Some (Str "error") /\
    r !! "error" = Some (Str s) /\
    s = str e /\
    (s <> "" <-> str e <> "").
Proof.
  pose proof Hcollect as H.
  run_failure H Herror;
    (eexists; exists (str e); split; [reflexivity|]; repeat split; auto; reflexivity).
Qed.

End Failure.

Lemma detailed_health_error_shape_witness :
  collect_metrics silent_world = Raises Exception0 /\
  is_Exception Exception0 = true /\
  exists r : gmap string value,
    detailed_health silent_world = Returns r /\
    r !! "status" = Some (Str "error") /\
    r !! "error" = Some (Str (str Exception0)) /\
    r !! "timestamp" = Some (Str (Datetime.isoformat (utcnow silent_world))) /\
    r !! "system" = None /\ r !! "dependencies" = None /\
    r !! "service" = None /\ r !! "version" = None /\
    dom r = {[ "status"; "error"; "timestamp" ]}.
Proof.
  split; [reflexivity|]. split; [reflexivity|].
  apply (detailed_health_error_shape silent_world Exception0); reflexivity.
Defined.

Lemma detailed_health_error_text_witness :
  collect_metrics boom_world = Raises (Exception1 "boom") /\
  is_Exception (Exception1 "boom") = true /\
  exists (r : gmap string value) (s : string),
    detailed_health boom_world = Returns r /\
    r !! "status" = Some (Str "error") /\
    r !! "error" = Some (Str s) /\
    s = "boom" /\
    (s <> "" <-> "boom" <> "").
Proof.
  split; [reflexivity|]. split; [reflexivity|].
  apply (detailed_health_error_text boom_world (Exception1 "boom")); reflexivity.
Defined.

(** ** Totality and the transport *)

(** C1: whenever metrics collection returns or raises an error (an
    instance of Exception), [detailed_health] returns a report, never
    raises, and the report is one of the two well-formed variants. *)
Theorem detailed_health_total (w : world) :
  returns_or_raises_error w = true ->
  exists r : gmap string value,
    detailed_health w = Returns r /\ well_formed_report r = true.
Proof.
  unfold returns_or_raises_error.
  destruct (collect_metrics w) as [[m c]|e] eqn:H; intros He.
  - run_success H. eexists. split; [reflexivity|]. vm_compute. reflexivity.
  - run_failure H He; (eexists; split; [reflexivity|]; vm_compute; reflexivity).
Qed.

Lemma detailed_health_total_witness :
  returns_or_raises_error silent_world = true /\
  exists r : gmap string value,
    detailed_health silent_world = Returns r /\ well_formed_report r = true.
Proof.
  split; [reflexivity|]. apply (detailed_health_total silent_world). reflexivity.
Defined.

(** GET /health is dispatched to [health_check] and GET /health/detailed
    to [detailed_health]. *)
Lemma app_health (w : world) :
  Main.app "GET" "/health" w =
  match health_check w with
  | Returns r => Main.mk_response 200 (Dict r)
  | Raises _ => Main.mk_response 500 (Str "Internal Server Error")
  end.
Proof. reflexivity. Qed.








(** The error report holds strings only and is answered 200. *)
Example app_boom :
  Main.app "GET" "/health/detailed" boom_world = Main.mk_response 200 (Dict boom_report).
Proof. vm_compute. reflexivity. Qed.

(** Another method on a path of the application is answered 405, a path
    with a trailing slash too many or too few 307, another path 404. *)
Example app_other_requests (w : world) :
  Main.status_code (Main.app "POST" "/health" w) = 405%Z /\
  Main.status_code (Main.app "GET" "/health/" w) = 307%Z /\
  Main.status_code (Main.app "GET" "/health/detailed//" w) = 307%Z /\
  Main.status_code (Main.app "POST" "/hello/" w) = 307%Z /\
  Main.status_code (Main.app "GET" "/detailed" w) = 404%Z /\
  Main.status_code (Main.app "GET" "/" w) = 404%Z.
Proof. repeat split; reflexivity. Qed.

(** An exception that the handler does not catch is answered 500. *)
Example app_interrupted :
  Main.status_code (Main.app "GET" "/health/detailed" interrupted_world) = 500%Z.
Proof. reflexivity. Qed.

(** ** Every report *)

(** C9: any report either handler returns has a "status" field that is
    "ok" or "error" and a "timestamp" field, the ISO text of the clock
    reading; this covers the except branch of [detailed_health]. *)
Theorem report_status_and_timestamp (w : world) (r : gmap string value) :
  health_check w = Returns r \/ detailed_health w = Returns r ->
  (r !! "status" = Some (Str "ok") \/ r !! "status" = Some (Str "error")) /\
  r !! "timestamp" = Some (Str (Datetime.isoformat (utcnow w))).
Proof.
  intros [H|H].
  - unfold health_check in H. injection H as <-.
    split; [left|]; reflexivity.
  - unfold detailed_health in H.
    destruct (virtual_memory w) as [m|e]; cbn in H.
    + destruct (cpu_percent w) as [c|e]; cbn in H.
      * injection H as <-. split; [left|]; reflexivity.
      * destruct (is_Exception e); cbn in H; [|discriminate H].
        injection H as <-. split; [right|]; reflexivity.
    + destruct (is_Exception e); cbn in H; [|discriminate H].
      injection H as <-. split; [right|]; reflexivity.
Qed.

Lemma report_status_and_timestamp_witness :
  detailed_health boom_world = Returns boom_report /\
  (boom_report !! "status" = Some (Str "ok") \/
   boom_report !! "status" = Some (Str "error")) /\
  boom_report !! "timestamp" = Some (Str "2024-03-07T09:05:00.001234").
Proof.
  split; [reflexivity|].
  apply (report_status_and_timestamp boom_world boom_report).
  right. reflexivity.
Defined.

(** ** Further properties of the handlers *)

(** X1: [detailed_health] raises exactly when metrics collection raised an
    exception that is not an instance of Exception, and it raises that
    same exception. *)
Theorem detailed_health_raises_iff (w : world) (e : exn) :
  detailed_health w = Raises e <->
  collect_metrics w = Raises e /\ is_Exception e = false.
Proof.
  unfold detailed_health, collect_metrics.
  destruct (virtual_memory w) as [m|e1]; cbn.
  - destruct (cpu_percent w) as [c|e2]; cbn.
    + split; [discriminate|]. intros [H _]. discriminate H.
    + destruct (is_Exception e2) eqn:He2; cbn.
      * split; [discriminate|]. intros [[= <-] He]. congruence.
      * split; [intros [= <-]; auto|]. intros [[= <-] _]. reflexivity.
  - destruct (is_Exception e1) eqn:He1; cbn.
    + split; [discriminate|]. intros [[= <-] He]. congruence.
    + split; [intros [= <-]; auto|]. intros [[= <-] _]. reflexivity.
Qed.

(** X2: when [psutil.virtual_memory()] raises an error, the report carries
    the text of that error and [psutil.cpu_percent()] has no influence:
    whatever it would return or raise, the result is the same. *)
Theorem detailed_health_memory_error_first (w : world) (e : exn) :
  virtual_memory w = Raises e ->
  is_Exception e = true ->
  exists r : gmap string value,
    r !! "error" = Some (Str (str e)) /\
    forall cpu : result float,
      detailed_health (mk_world (utcnow w) (environ w) (virtual_memory w) cpu)
      = Returns r.
Proof.
  intros Hm He. eexists. split; [|intros cpu; unfold detailed_health; cbn;
    rewrite Hm; cbn; rewrite He; cbn; reflexivity].
  reflexivity.
Qed.

Lemma detailed_health_memory_error_first_witness :
  exists r : gmap string value,
    r !! "error" = Some (Str "no meminfo") /\
    forall cpu : result float,
      detailed_health
        (mk_world (utcnow broken_world) (environ broken_world)
                  (virtual_memory broken_world) cpu)
      = Returns r.
Proof.
  apply (detailed_health_memory_error_first broken_world (Exception1 "no meminfo"));
    reflexivity.
Defined.

(** X3: when metrics collection succeeds, every field of the report of
    [health_check] is in the report of [detailed_health] with the same
    value. *)
Theorem detailed_health_extends_health_check (w : world) (mc : Psutil.svmem * float) :
  collect_metrics w = Returns mc ->
  exists basic detailed : gmap string value,
    health_check w = Returns basic /\
    detailed_health w = Returns detailed /\
    basic ⊆ detailed.
Proof.
  destruct mc as [m c]. intros H. run_success H.
  do 2 eexists. split; [reflexivity|]. split; [reflexivity|].
  apply map_subseteq_spec. intros k v Hk.
  apply lookup_insert_Some in Hk as [[<- <-]|[Hk1 Hk]]; [reflexivity|].
  apply lookup_insert_Some in Hk as [[<- <-]|[Hk2 Hk]]; [reflexivity|].
  apply lookup_insert_Some in Hk as [[<- <-]|[Hk3 Hk]]; [reflexivity|].
  apply lookup_singleton_Some in Hk as [<- <-]. reflexivity.
Qed.

Lemma detailed_health_extends_health_check_witness :
  exists basic detailed : gmap string value,
    health_check staging_world = Returns basic /\
    detailed_health staging_world = Returns detailed /\
    basic ⊆ detailed.
Proof.
  apply (detailed_health_extends_health_check staging_world (sample_memory, 12.5%float)).
  reflexivity.
Defined.

(** X4: a client can tell the two variants of a returned detailed report
    apart by any one of its fields: the status is "error" exactly when the
    "error" field is there, and "ok" exactly when the "system" field is
    there, exactly when "dependencies" is, "service" is and "version" is;
    the report never has both "error" and "system". *)
Theorem detailed_health_variants (w : world) (r : gmap string value) :
  detailed_health w = Returns r ->
  (r !! "status" = Some (Str "error") <-> is_Some (r !! "error")) /\
  (r !! "status" = Some (Str "ok") <-> is_Some (r !! "system")) /\
  (is_Some (r !! "system") <-> is_Some (r !! "dependencies")) /\
  (is_Some (r !! "system") <-> is_Some (r !! "service")) /\
  (is_Some (r !! "system") <-> is_Some (r !! "version")) /\
  ~ (is_Some (r !! "error") /\ is_Some (r !! "system")).
Proof.
  assert (Hnone : forall A : Type, ~ is_Some (@None A))
    by (intros A [x Hx]; discriminate Hx).
  intros H. unfold detailed_health in H.
  destruct (virtual_memory w) as [m|e]; cbn in H;
    [destruct (cpu_percent w) as [c|e]; cbn in H|].
  - injection H as <-.
    repeat split; try (intros _; eexists; reflexivity);
      try (intros Hs; vm_compute in Hs; discriminate Hs);
      try (intros Hs; exfalso; revert Hs; apply Hnone).
    intros [Hs _]. revert Hs. apply Hnone.
  - destruct (is_Exception e); cbn in H; [|discriminate H]. injection H as <-.
    repeat split; try (intros _; eexists; reflexivity);
      try (intros Hs; vm_compute in Hs; discriminate Hs);
      try (intros Hs; exfalso; revert Hs; apply Hnone).
    intros [_ Hs]. revert Hs. apply Hnone.
  - destruct (is_Exception e); cbn in H; [|discriminate H]. injection H as <-.
    repeat split; try (intros _; eexists; reflexivity);
      try (intros Hs; vm_compute in Hs; discriminate Hs);
      try (intros Hs; exfalso; revert Hs; apply Hnone).
    intros [_ Hs]. revert Hs. apply Hnone.
Qed.

Lemma detailed_health_variants_witness :
  (boom_report !! "status" = Some (Str "error") <-> is_Some (boom_report !! "error")) /\
  (boom_report !! "status" = Some (Str "ok") <-> is_Some (boom_report !! "system")) /\
  (is_Some (boom_report !! "system") <-> is_Some (boom_report !! "dependencies")) /\
  (is_Some (boom_report !! "system") <-> is_Some (boom_report !! "service")) /\
  (is_Some (boom_report !! "system") <-> is_Some (boom_report !! "version")) /\
  ~ (is_Some (boom_report !! "error") /\ is_Some (boom_report !! "system")).
Proof.
  apply (detailed_health_variants boom_world boom_report). reflexivity.
Defined.

(** X5: the result of [detailed_health] is a function of the clock, of
    NODE_ENV, and of what metrics collection gives of the memory
    percentage, the available bytes and the CPU percentage (or its first
    exception).  No other environment variable and no other field of the
    memory statistics has any influence. *)
Theorem detailed_health_reads_only (w1 w2 : world) :
  observation w1 = observation w2 ->
  detailed_health w1 = detailed_health w2.
Proof.
  unfold observation, detailed_health, getenv.
  intros [= Hclock Henv Hmetrics]. rewrite Hclock, Henv. clear Hclock Henv.
  destruct (virtual_memory w1) as [m1|e1], (virtual_memory w2) as [m2|e2];
    cbn in *; try discriminate Hmetrics.
  - destruct (cpu_percent w1) as [c1|e1], (cpu_percent w2) as [c2|e2];
      cbn in *; try discriminate Hmetrics.
    + injection Hmetrics as -> -> ->. reflexivity.
    + injection Hmetrics as ->. reflexivity.
  - destruct (cpu_percent w1) as [c1|e1']; cbn in *; [discriminate Hmetrics|].
    injection Hmetrics as ->. reflexivity.
  - destruct (cpu_percent w2) as [c2|e2']; cbn in *; [discriminate Hmetrics|].
    injection Hmetrics as ->. reflexivity.
  - injection Hmetrics as ->. reflexivity.
Qed.

Lemma detailed_health_reads_only_witness :
  environ staging_world <> environ secret_world /\
  virtual_memory staging_world <> virtual_memory secret_world /\
  detailed_health staging_world = detailed_health secret_world.
Proof.
  split; [|split].
  - intros Henv. apply (f_equal (fun m => m !! "API_KEY")) in Henv.
    vm_compute in Henv. discriminate Henv.
  - discriminate.
  - apply (detailed_health_reads_only staging_world secret_world). reflexivity.
Defined.

(** ** The application and its entry point *)

(** X6: GET /hello and GET /health are answered 200 for every state of the
    host, also one in which psutil raises or is interrupted, and /hello
    carries the greeting. *)
Theorem hello_and_health_always_200 (w : world) :
  Main.app "GET" "/hello" w
  = Main.mk_response 200 (Str "Hello from Warely AI-Service") /\
  exists r : gmap string value,
    Main.app "GET" "/health" w = Main.mk_response 200 (Dict r) /\
    health_check w = Returns r.
Proof.
  split; [reflexivity|]. eexists. split; reflexivity.
Qed.

Section EntryPointFacts.

Variable int_str : string -> result Z.

(** X7: starting the service raises exactly when PORT is set to a text
    that [int] rejects, and then with the exception of [int]; there is no
    fallback to 6001.  Otherwise [uvicorn.run] is called for "app.main:app"
    on host 0.0.0.0, with the port [int] read, or 6001 when PORT is unset. *)
Theorem main_port (environ : gmap string string) :
  (forall e, Main.main int_str environ = Raises e <->
             exists s, environ !! "PORT" = Some s /\ int_str s = Raises e) /\
  (forall args, Main.main int_str environ = Returns args ->
     Main.run_app args = "app.main:app" /\
     Main.run_host args = "0.0.0.0" /\
     (environ !! "PORT" = None -> Main.run_port args = 6001%Z) /\
     (forall s, environ !! "PORT" = Some s ->
                int_str s = Returns (Main.run_port args))).
Proof.
  unfold Main.main, Main.port.
  destruct (environ !! "PORT") as [s|] eqn:Hport; cbn.
  - destruct (int_str s) as [p|e'] eqn:Hint; cbn; split.
    + intros e. split; [discriminate|].
      intros (s' & [= <-] & Hs'). congruence.
    + intros args [= <-]. cbn.
      repeat split; [discriminate|]. intros s' [= <-]. exact Hint.
    + intros e. split.
      * intros [= <-]. exists s. split; [reflexivity|exact Hint].
      * intros (s' & [= <-] & Hs'). congruence.
    + intros args Hargs. discriminate Hargs.
  - split.
    + intros e. split; [discriminate|]. intros (s & Hs & _). discriminate Hs.
    + intros args [= <-]. cbn. repeat split. intros s Hs. discriminate Hs.
Qed.

(** X8: the reload flag and the health report read the same variable:
    when the service could start and metrics collection succeeds on a host
    with the same environment, [uvicorn.run] is called with reload on
    exactly when /health/detailed reports the environment "development".
    With NODE_ENV unset reload is off and the report says "production". *)
Theorem reload_iff_development (w : world) (mc : Psutil.svmem * float)
    (args : Main.run_args) :
  collect_metrics w = Returns mc ->
  Main.main int_str (environ w) = Returns args ->
  exists r : gmap string value,
    detailed_health w = Returns r /\
    (Main.run_reload args = true <->
     system_field r "environment" = Some (Str "development")) /\
    (environ w !! "NODE_ENV" = None ->
     Main.run_reload args = false /\
     system_field r "environment" = Some (Str "production")).
Proof.
  destruct mc as [m c]. intros H Hmain. run_success H.
  unfold Main.main in Hmain.
  destruct (Main.port int_str (environ w)) as [p|e]; cbn in Hmain;
    [|discriminate Hmain].
  injection Hmain as <-. cbn.
  eexists. split; [reflexivity|].
  match goal with
  | |- context [system_field ?r "environment"] =>
      assert (Hfield : system_field r "environment"
                       = Some (Str (getenv (environ w) "NODE_ENV" "production")))
        by reflexivity;
      rewrite Hfield; clear Hfield
  end.
  unfold getenv, Main.reload.
  destruct (environ w !! "NODE_ENV") as [s|]; cbn.
  - split; [|discriminate]. rewrite String.eqb_eq.
    split; [intros ->; reflexivity|intros [= ->]; reflexivity].
  - split; [|intros _; split; reflexivity].
    split; discriminate.
Qed.

End EntryPointFacts.

Lemma reload_iff_development_witness :
  Main.main sample_int (environ port_world)
  = Returns (Main.mk_run_args "app.main:app" "0.0.0.0" 8080 true) /\
  exists r : gmap string value,
    detailed_health port_world = Returns r /\
    (true = true <-> system_field r "environment" = Some (Str "development")) /\
    (environ port_world !! "NODE_ENV" = None ->
     true = false /\ system_field r "environment" = Some (Str "production")).
Proof.
  split; [reflexivity|].
  apply (reload_iff_development sample_int port_world (sample_memory, 0%float)
           (Main.mk_run_args "app.main:app" "0.0.0.0" 8080 true));
    reflexivity.
Defined.

(** ** Timestamps *)

Section Padding.

Import Decimal.

Lemma length_string_of_uint (d : uint) :
  String.length (NilEmpty.string_of_uint d) = nb_digits d.
Proof. induction d; cbn; congruence. Qed.

Lemma string_of_iter_D0 (k : nat) (d : uint) :
  NilEmpty.string_of_uint (Nat.iter k D0 d)
  = Datetime.zeros k ++ NilEmpty.string_of_uint d.
Proof.
  induction k as [|k IH]; [reflexivity|].
  change (Nat.iter (S k) D0 d) with (D0 (Nat.iter k D0 d)).
  cbn [NilEmpty.string_of_uint]. rewrite IH. reflexivity.
Qed.

Lemma string_of_uint_nonnil (d : uint) :
  d <> Nil -> NilZero.string_of_uint d = NilEmpty.string_of_uint d.
Proof. destruct d; [congruence|reflexivity..]. Qed.

(** Padding the numeral of a number gives back any digit sequence of that
    number, leading zeros included. *)
Lemma zfill_uint (d : uint) :
  d <> Nil ->
  Datetime.zfill (nb_digits d) (N.of_uint d) = NilEmpty.string_of_uint d.
Proof.
  intros Hd. unfold Datetime.zfill, Datetime.dec.
  rewrite DecimalN.Unsigned.to_of.
  rewrite (string_of_uint_nonnil (unorm d)) by apply unorm_nonnil.
  rewrite length_string_of_uint, <- string_of_iter_D0.
  rewrite iter_D0_unorm by exact Hd. reflexivity.
Qed.

Lemma of_lu_digit (k : N) (d : uint) :
  (k < 10)%N ->
  DecimalPos.Unsigned.of_lu (digit k d) = (k + 10 * DecimalPos.Unsigned.of_lu d)%N.
Proof.
  intros Hk.
  assert (Hcases : k = 0%N \/ k = 1%N \/ k = 2%N \/ k = 3%N \/ k = 4%N \/
                   k = 5%N \/ k = 6%N \/ k = 7%N \/ k = 8%N \/ k = 9%N) by lia.
  repeat destruct Hcases as [->|Hcases]; try subst k; reflexivity.
Qed.

Lemma nb_digits_digit (k : N) (d : uint) :
  nb_digits (digit k d) = S (nb_digits d).
Proof.
  unfold digit. destruct k as [|p]; [reflexivity|].
  do 4 (try destruct p as [p|p|]); reflexivity.
Qed.

Lemma of_lu_low_digits (w : nat) (n : N) :
  DecimalPos.Unsigned.of_lu (low_digits w n) = (n mod 10 ^ N.of_nat w)%N.
Proof.
  revert n. induction w as [|w IH]; intros n.
  - cbn. rewrite N.mod_1_r. reflexivity.
  - cbn [low_digits]. rewrite of_lu_digit by (apply N.mod_lt; lia).
    rewrite IH, Nat2N.inj_succ, N.pow_succ_r'.
    rewrite N.Div0.mod_mul_r. reflexivity.
Qed.

Lemma nb_digits_low_digits (w : nat) (n : N) :
  nb_digits (low_digits w n) = w.
Proof.
  revert n. induction w as [|w IH]; intros n; [reflexivity|].
  cbn [low_digits]. rewrite nb_digits_digit, IH. reflexivity.
Qed.

(** A number below [10 ^ w] is padded to its [w] digits. *)
Lemma zfill_digits (w : nat) (n : N) :
  0 < w -> (n < 10 ^ N.of_nat w)%N ->
  exists d : uint,
    nb_digits d = w /\ N.of_uint d = n /\
    Datetime.zfill w n = NilEmpty.string_of_uint d.
Proof.
  intros Hw Hn. exists (rev (low_digits w n)).
  assert (Hnb : nb_digits (rev (low_digits w n)) = w)
    by (rewrite nb_digits_rev; apply nb_digits_low_digits).
  assert (Hval : N.of_uint (rev (low_digits w n)) = n).
  { unfold N.of_uint. rewrite DecimalPos.Unsigned.of_lu_rev, of_lu_low_digits.
    apply N.mod_small. exact Hn. }
  split; [exact Hnb|]. split; [exact Hval|].
  pose proof (zfill_uint (rev (low_digits w n))) as Hfill.
  rewrite Hnb, Hval in Hfill. apply Hfill.
  apply nb_digits_n0. lia.
Qed.

Lemma length_zfill (w : nat) (n : N) :
  0 < w -> (n < 10 ^ N.of_nat w)%N -> String.length (Datetime.zfill w n) = w.
Proof.
  intros Hw Hn. destruct (zfill_digits w n Hw Hn) as (d & Hnb & _ & ->).
  rewrite length_string_of_uint. exact Hnb.
Qed.

Lemma zfill_inj (w : nat) (n1 n2 : N) :
  0 < w -> (n1 < 10 ^ N.of_nat w)%N -> (n2 < 10 ^ N.of_nat w)%N ->
  Datetime.zfill w n1 = Datetime.zfill w n2 -> n1 = n2.
Proof.
  intros Hw H1 H2 Heq.
  destruct (zfill_digits w n1 Hw H1) as (d1 & _ & <- & E1).
  destruct (zfill_digits w n2 Hw H2) as (d2 & _ & <- & E2).
  rewrite E1, E2 in Heq.
  apply (f_equal NilEmpty.uint_of_string) in Heq.
  rewrite !NilEmpty.usu in Heq. congruence.
Qed.

End Padding.

Lemma length_append (a b : string) :
  String.length (a ++ b) = String.length a + String.length b.
Proof. induction a as [|c a IH]; [reflexivity|]. cbn. rewrite <- IH. reflexivity. Qed.

Lemma append_inj_length (a a' b b' : string) :
  String.length a = String.length a' ->
  a ++ b = a' ++ b' -> a = a' /\ b = b'.
Proof.
  revert a'. induction a as [|c a IH]; intros [|c' a'] Hlen Heq;
    try discriminate Hlen.
  - split; [reflexivity|exact Heq].
  - injection Hlen as Hlen. injection Heq as -> Heq.
    destruct (IH a' Hlen Heq) as [-> ->]. split; reflexivity.
Qed.

(** What the invariants of a datetime give for the widths of its fields. *)
Lemma valid_datetime_widths (d : Datetime.datetime) :
  valid_datetime d = true ->
  (Datetime.year d < 10 ^ N.of_nat 4)%N /\
  (Datetime.month d < 10 ^ N.of_nat 2)%N /\
  (Datetime.day d < 10 ^ N.of_nat 2)%N /\
  (Datetime.hour d < 10 ^ N.of_nat 2)%N /\
  (Datetime.minute d < 10 ^ N.of_nat 2)%N /\
  (Datetime.second d < 10 ^ N.of_nat 2)%N /\
  (Datetime.microsecond d < 10 ^ N.of_nat 6)%N.
Proof.
  unfold valid_datetime. rewrite !andb_true_iff, !N.leb_le, !N.ltb_lt.
  change (10 ^ N.of_nat 4)%N with 10000%N.
  change (10 ^ N.of_nat 2)%N with 100%N.
  change (10 ^ N.of_nat 6)%N with 1000000%N.
  lia.
Qed.

(** The text of a valid clock reading has nineteen characters, or
    twenty-six when the microsecond is not zero. *)
Lemma length_isoformat (d : Datetime.datetime) :
  valid_datetime d = true ->
  String.length (Datetime.isoformat d)
  = if N.eqb (Datetime.microsecond d) 0 then 19 else 26.
Proof.
  intros (Hy & Hmo & Hd & Hh & Hmi & Hs & Hus)%valid_datetime_widths.
  unfold Datetime.isoformat.
  destruct (N.eqb (Datetime.microsecond d) 0);
    rewrite !length_append, !length_zfill by (assumption || lia); reflexivity.
Qed.

Lemma isoformat_inj (d1 d2 : Datetime.datetime) :
  valid_datetime d1 = true -> valid_datetime d2 = true ->
  Datetime.isoformat d1 = Datetime.isoformat d2 -> d1 = d2.
Proof.
  intros (Hy1 & Hmo1 & Hd1 & Hh1 & Hmi1 & Hs1 & Hus1)%valid_datetime_widths
         (Hy2 & Hmo2 & Hd2 & Hh2 & Hmi2 & Hs2 & Hus2)%valid_datetime_widths.
  unfold Datetime.isoformat. intros H.
  repeat match type of H with
  | ?a ++ ?b = ?a' ++ ?b' =>
      let Ha := fresh "Ha" in
      apply append_inj_length in H as [Ha H];
        [| rewrite ?length_zfill by (assumption || lia); reflexivity ]
  end.
  destruct d1 as [y1 mo1 dd1 h1 mi1 s1 us1], d2 as [y2 mo2 dd2 h2 mi2 s2 us2];
    cbn in *.
  repeat match goal with
  | Hz : Datetime.zfill ?w ?a = Datetime.zfill ?w ?b |- _ =>
      apply zfill_inj in Hz; [subst a | lia | assumption | assumption]
  end.
  f_equal.
  destruct (N.eqb_spec us1 0) as [->|Hne1], (N.eqb_spec us2 0) as [->|Hne2];
    try reflexivity; try discriminate H.
  apply append_inj_length in H as [_ H]; [|reflexivity].
  apply zfill_inj in H; [exact H | lia | assumption | assumption].
Qed.

(** *** The order of timestamps *)

Section Order.

Import Decimal.

Lemma append_assoc (a b c : string) : (a ++ b) ++ c = a ++ (b ++ c).
Proof.
  induction a as [|x a IH]; [reflexivity|].
  change (String x ((a ++ b) ++ c) = String x (a ++ (b ++ c))).
  rewrite IH. reflexivity.
Qed.

Lemma string_of_revapp (d acc : uint) :
  NilEmpty.string_of_uint (revapp d acc)
  = NilEmpty.string_of_uint (rev d) ++ NilEmpty.string_of_uint acc.
Proof.
  unfold rev. revert acc.
  induction d as [|d IH|d IH|d IH|d IH|d IH|d IH|d IH|d IH|d IH|d IH];
    intros acc; [reflexivity|..];
    cbn [revapp]; rewrite (IH (_ acc)), (IH (_ Nil)), append_assoc; reflexivity.
Qed.

Lemma string_of_rev_digit (k : N) (d : uint) :
  NilEmpty.string_of_uint (rev (digit k d))
  = NilEmpty.string_of_uint (rev d) ++ NilEmpty.string_of_uint (digit k Nil).
Proof.
  rewrite <- string_of_revapp. unfold digit, rev.
  destruct k as [|p]; [reflexivity|].
  do 4 (try destruct p as [p|p|]); reflexivity.
Qed.

Lemma length_digit (k : N) :
  String.length (NilEmpty.string_of_uint (digit k Nil)) = 1.
Proof. rewrite length_string_of_uint, nb_digits_digit. reflexivity. Qed.

(** Strings of one length compare by their first difference. *)
Lemma compare_append (a a' b b' : string) :
  String.length a = String.length a' ->
  String.compare (a ++ b) (a' ++ b')
  = match String.compare a a' with
    | Eq => String.compare b b'
    | c => c
    end.
Proof.
  revert a'. induction a as [|x a IH]; intros [|x' a'] Hlen;
    try discriminate Hlen; [reflexivity|].
  injection Hlen as Hlen.
  change (String.compare (String x a ++ b) (String x' a' ++ b'))
    with (match Ascii.compare x x' with
          | Eq => String.compare (a ++ b) (a' ++ b')
          | c => c
          end).
  cbn [String.compare]. rewrite (IH a' Hlen).
  destruct (Ascii.compare x x'); reflexivity.
Qed.

Lemma compare_digit (k1 k2 : N) :
  (k1 < 10)%N -> (k2 < 10)%N ->
  String.compare (NilEmpty.string_of_uint (digit k1 Nil))
                 (NilEmpty.string_of_uint (digit k2 Nil))
  = N.compare k1 k2.
Proof.
  intros H1 H2.
  assert (C1 : k1 = 0%N \/ k1 = 1%N \/ k1 = 2%N \/ k1 = 3%N \/ k1 = 4%N \/
               k1 = 5%N \/ k1 = 6%N \/ k1 = 7%N \/ k1 = 8%N \/ k1 = 9%N) by lia.
  assert (C2 : k2 = 0%N \/ k2 = 1%N \/ k2 = 2%N \/ k2 = 3%N \/ k2 = 4%N \/
               k2 = 5%N \/ k2 = 6%N \/ k2 = 7%N \/ k2 = 8%N \/ k2 = 9%N) by lia.
  clear H1 H2.
  repeat destruct C1 as [->|C1]; try subst k1;
    repeat destruct C2 as [->|C2]; try subst k2; reflexivity.
Qed.

(** Numbers written low digit and rest compare by the rest first. *)
Lemma compare_low_digit (x0 x1 y0 y1 : N) :
  (x0 < 10)%N -> (y0 < 10)%N ->
  N.compare (x0 + 10 * x1) (y0 + 10 * y1)
  = match N.compare x1 y1 with
    | Eq => N.compare x0 y0
    | c => c
    end.
Proof.
  intros Hx Hy.
  destruct (N.compare_spec x1 y1) as [->|Hlt|Hgt].
  - destruct (N.compare_spec x0 y0) as [->|Hlt|Hgt].
    + apply N.compare_refl.
    + apply N.compare_lt_iff. lia.
    + apply N.compare_gt_iff. lia.
  - apply N.compare_lt_iff. lia.
  - apply N.compare_gt_iff. lia.
Qed.

Lemma length_rev_low_digits (w : nat) (n : N) :
  String.length (NilEmpty.string_of_uint (rev (low_digits w n))) = w.
Proof. rewrite length_string_of_uint, nb_digits_rev. apply nb_digits_low_digits. Qed.

Lemma compare_low_digits (w : nat) (a b : N) :
  String.compare (NilEmpty.string_of_uint (rev (low_digits w a)))
                 (NilEmpty.string_of_uint (rev (low_digits w b)))
  = N.compare (a mod 10 ^ N.of_nat w) (b mod 10 ^ N.of_nat w).
Proof.
  revert a b. induction w as [|w IH]; intros a b.
  - cbn. rewrite !N.mod_1_r. reflexivity.
  - cbn [low_digits]. rewrite !string_of_rev_digit.
    rewrite compare_append by (rewrite !length_rev_low_digits; reflexivity).
    rewrite IH, compare_digit by (apply N.mod_lt; lia).
    rewrite Nat2N.inj_succ, N.pow_succ_r'.
    rewrite !(N.Div0.mod_mul_r _ 10).
    symmetry. apply compare_low_digit; apply N.mod_lt; lia.
Qed.

(** Padded numbers of one width compare as the numbers do. *)
Lemma compare_zfill (w : nat) (a b : N) :
  0 < w -> (a < 10 ^ N.of_nat w)%N -> (b < 10 ^ N.of_nat w)%N ->
  String.compare (Datetime.zfill w a) (Datetime.zfill w b) = N.compare a b.
Proof.
  intros Hw Ha Hb.
  assert (Hfill : forall n, (n < 10 ^ N.of_nat w)%N ->
            Datetime.zfill w n = NilEmpty.string_of_uint (rev (low_digits w n))).
  { intros n Hn.
    pose proof (zfill_uint (rev (low_digits w n))) as Hfill.
    rewrite nb_digits_rev, nb_digits_low_digits in Hfill.
    unfold N.of_uint in Hfill.
    rewrite DecimalPos.Unsigned.of_lu_rev, of_lu_low_digits in Hfill.
    rewrite N.mod_small in Hfill by exact Hn.
    apply Hfill. apply nb_digits_n0.
    rewrite nb_digits_rev, nb_digits_low_digits. lia. }
  rewrite (Hfill a Ha), (Hfill b Hb), compare_low_digits.
  rewrite !N.mod_small by assumption. reflexivity.
Qed.

End Order.

Lemma compare_fraction (us1 us2 : N) :
  (us1 < 10 ^ N.of_nat 6)%N -> (us2 < 10 ^ N.of_nat 6)%N ->
  String.compare
    (if N.eqb us1 0 then "" else "." ++ Datetime.zfill 6 us1)
    (if N.eqb us2 0 then "" else "." ++ Datetime.zfill 6 us2)
  = N.compare us1 us2.
Proof.
  intros H1 H2.
  destruct (N.eqb_spec us1 0) as [->|Hne1], (N.eqb_spec us2 0) as [->|Hne2].
  - reflexivity.
  - symmetry. apply N.compare_lt_iff. lia.
  - symmetry. apply N.compare_gt_iff. lia.
  - rewrite compare_append by reflexivity.
    change (String.compare "." ".") with Eq. cbv iota.
    apply compare_zfill; [lia|assumption|assumption].
Qed.

(** The texts of two valid clock readings compare, as strings, the way
    the readings compare in time. *)
Lemma compare_isoformat (d1 d2 : Datetime.datetime) :
  valid_datetime d1 = true -> valid_datetime d2 = true ->
  String.compare (Datetime.isoformat d1) (Datetime.isoformat d2)
  = datetime_compare d1 d2.
Proof.
  intros (Hy1 & Hmo1 & Hd1 & Hh1 & Hmi1 & Hs1 & Hus1)%valid_datetime_widths
         (Hy2 & Hmo2 & Hd2 & Hh2 & Hmi2 & Hs2 & Hus2)%valid_datetime_widths.
  unfold Datetime.isoformat, datetime_compare. cbn [lex_compare].
  rewrite !compare_append
    by (rewrite ?length_zfill by (assumption || lia); reflexivity).
  rewrite compare_fraction by assumption.
  rewrite !compare_zfill by (assumption || lia).
  change (String.compare "-" "-") with Eq.
  change (String.compare "T" "T") with Eq.
  change (String.compare ":" ":") with Eq.
  cbv iota.
  destruct (N.compare (Datetime.year d1) (Datetime.year d2)); [|reflexivity..].
  destruct (N.compare (Datetime.month d1) (Datetime.month d2)); [|reflexivity..].
  destruct (N.compare (Datetime.day d1) (Datetime.day d2)); [|reflexivity..].
  destruct (N.compare (Datetime.hour d1) (Datetime.hour d2)); [|reflexivity..].
  destruct (N.compare (Datetime.minute d1) (Datetime.minute d2)); [|reflexivity..].
  destruct (N.compare (Datetime.second d1) (Datetime.second d2)); [|reflexivity..].
  destruct (N.compare (Datetime.microsecond d1) (Datetime.microsecond d2));
    reflexivity.
Qed.

(** *** The timestamp of a report *)

Lemma returned_timestamp (w : world) (r : gmap string value) :
  health_check w = Returns r \/ detailed_health w = Returns r ->
  r !! "timestamp" = Some (Str (Datetime.isoformat (utcnow w))).
Proof.
  intros [H|H].
  - unfold health_check in H. injection H as <-. reflexivity.
  - unfold detailed_health in H.
    destruct (virtual_memory w) as [m|e]; cbn in H;
      [destruct (cpu_percent w) as [c|e]; cbn in H|];
      try (destruct (is_Exception e); cbn in H; [|discriminate H]);
      injection H as <-; reflexivity.
Qed.

(** X9: the timestamp of any report either handler returns for a valid
    clock reading has nineteen characters when the microsecond of the
    reading is zero and twenty-six otherwise: the fraction is left out,
    not printed as zeros. *)
Theorem timestamp_length (w : world) (r : gmap string value) :
  valid_datetime (utcnow w) = true ->
  health_check w = Returns r \/ detailed_health w = Returns r ->
  exists ts : string,
    r !! "timestamp" = Some (Str ts) /\
    String.length ts
    = if N.eqb (Datetime.microsecond (utcnow w)) 0 then 19 else 26.
Proof.
  intros Hvalid Hr. exists (Datetime.isoformat (utcnow w)).
  split; [apply returned_timestamp; exact Hr|].
  apply length_isoformat. exact Hvalid.
Qed.

Lemma timestamp_length_witness :
  exists ts : string,
    later_report !! "timestamp" = Some (Str ts) /\ String.length ts = 19.
Proof.
  apply (timestamp_length later_world later_report); [reflexivity|].
  left. reflexivity.
Defined.

(** X10: the timestamp identifies the clock reading: two reports, each
    returned by either handler for a valid clock reading, that have the
    same timestamp come from the same reading. *)
Theorem timestamp_identifies_clock (w1 w2 : world) (r1 r2 : gmap string value) :
  valid_datetime (utcnow w1) = true ->
  valid_datetime (utcnow w2) = true ->
  health_check w1 = Returns r1 \/ detailed_health w1 = Returns r1 ->
  health_check w2 = Returns r2 \/ detailed_health w2 = Returns r2 ->
  r1 !! "timestamp" = r2 !! "timestamp" ->
  utcnow w1 = utcnow w2.
Proof.
  intros Hv1 Hv2 H1%returned_timestamp H2%returned_timestamp Heq.
  rewrite H1, H2 in Heq. injection Heq as Heq.
  apply isoformat_inj; assumption.
Qed.

Lemma timestamp_identifies_clock_witness :
  boom_report !! "timestamp" = Some (Str "2024-03-07T09:05:00.001234") /\
  utcnow boom_world = utcnow staging_world.
Proof.
  split; [reflexivity|].
  apply (timestamp_identifies_clock boom_world staging_world boom_report
           {[ "status" := Str "ok"; "service" := Str "ai-service";
              "timestamp" := Str "2024-03-07T09:05:00.001234";
              "version" := Str "1.0.0" ]});
    try reflexivity; [right|left]; reflexivity.
Defined.

(** X11: timestamps sort in time: the timestamps of two reports, each
    returned by either handler for a valid clock reading, compare as
    strings the way the two readings compare as datetimes. *)
Theorem timestamps_sort_chronologically
    (w1 w2 : world) (r1 r2 : gmap string value) (ts1 ts2 : string) :
  valid_datetime (utcnow w1) = true ->
  valid_datetime (utcnow w2) = true ->
  health_check w1 = Returns r1 \/ detailed_health w1 = Returns r1 ->
  health_check w2 = Returns r2 \/ detailed_health w2 = Returns r2 ->
  r1 !! "timestamp" = Some (Str ts1) ->
  r2 !! "timestamp" = Some (Str ts2) ->
  String.compare ts1 ts2 = datetime_compare (utcnow w1) (utcnow w2).
Proof.
  intros Hv1 Hv2 H1%returned_timestamp H2%returned_timestamp Hts1 Hts2.
  rewrite H1 in Hts1. rewrite H2 in Hts2.
  injection Hts1 as <-. injection Hts2 as <-.
  apply compare_isoformat; assumption.
Qed.

Lemma timestamps_sort_chronologically_witness :
  datetime_compare (utcnow boom_world) (utcnow later_world) = Lt /\
  String.compare "2024-03-07T09:05:00.001234" "2024-03-07T09:05:01"
  = datetime_compare (utcnow boom_world) (utcnow later_world).
Proof.
  split; [reflexivity|].
  apply (timestamps_sort_chronologically boom_world later_world
           boom_report later_report); try reflexivity; [right|left]; reflexivity.
Defined.

(** *** The success report in full *)

(** X12: when metrics collection succeeds, the report has exactly the six
    fields status, service, timestamp, version, system and dependencies;
    its system block has exactly the four fields cpu_percent,
    memory_percent, memory_available and environment; and the three
    numbers are the ones psutil returned, unchanged. *)
Theorem detailed_health_passes_metrics (w : world) (m : Psutil.svmem) (c : float) :
  collect_metrics w = Returns (m, c) ->
  exists r sys : gmap string value,
    detailed_health w = Returns r /\
    dom r = {[ "status"; "service"; "timestamp"; "version";
               "system"; "dependencies" ]} /\
    r !! "system" = Some (Dict sys) /\
    dom sys = {[ "cpu_percent"; "memory_percent"; "memory_available";
                 "environment" ]} /\
    sys !! "cpu_percent" = Some (Float c) /\
    sys !! "memory_percent" = Some (Float (Psutil.percent m)) /\
    sys !! "memory_available" = Some (Int (Psutil.available m)).
Proof.
  intros H. run_success H.
  do 2 eexists. split; [reflexivity|]. split; [reflexivity|].
  split; [reflexivity|]. repeat split; reflexivity.
Qed.

Lemma detailed_health_passes_metrics_witness :
  exists r sys : gmap string value,
    detailed_health staging_world = Returns r /\
    dom r = {[ "status"; "service"; "timestamp"; "version";
               "system"; "dependencies" ]} /\
    r !! "system" = Some (Dict sys) /\
    dom sys = {[ "cpu_percent"; "memory_percent"; "memory_available";
                 "environment" ]} /\
    sys !! "cpu_percent" = Some (Float 12.5%float) /\
    sys !! "memory_percent" = Some (Float 62.5%float) /\
    sys !! "memory_available" = Some (Int 6000000000).
Proof.
  apply (detailed_health_passes_metrics staging_world sample_memory 12.5%float).
  reflexivity.
Defined.

Example isoformat_order_sample :
  String.compare (Datetime.isoformat (Datetime.mk_datetime 2024 3 7 9 5 0 999999))
                 (Datetime.isoformat (Datetime.mk_datetime 2024 3 7 9 5 1 0)) = Lt.
Proof. reflexivity. Qed.
